(** * The explore page: question execution and suggestions

    A shallow embedding of
      - [web/src/pages/explore/_components/Execution.tsx]
        ([useQuestion], [isSqlError], the derived values of [Execution],
        [renderEngines] and [Chart]), and
      - [web/src/pages/explore/_components/Suggestions.tsx]
        ([types], [questions], [Suggestions]).

    JavaScript values of type [unknown] are a small value universe with
    property access that throws on [null] and [undefined]; typed values
    ([Question | undefined], [ChartResult | undefined]) are [option]s of
    records; the browser timer API is a state monad over the table of
    pending timeouts; rendered React trees are an inductive type. *)

From stdpp Require Import base option list strings gmap pretty.

Set Warnings "-register-all".
Local Open Scope string_scope.

(** ** Completions: a value, or a thrown exception *)

Inductive Completion (A : Type) : Type :=
| Normal (a : A)
| Throws.
Arguments Normal {A} a.
Arguments Throws {A}.

#[global] Instance Completion_ret : MRet Completion := fun _ a => Normal a.
#[global] Instance Completion_bind : MBind Completion := fun _ _ k m =>
  match m with
  | Normal a => k a
  | Throws => Throws
  end.

(** ** [Suggestions.tsx] *)

Record SuggestionType : Type := {
  type_title : string;
  color : string;
}.

Module types.
Definition hotTopics : SuggestionType :=
  {| type_title := "🔥 Hot topics"; color := "#E78F34" |}.
Definition programmingLanguage : SuggestionType :=
  {| type_title := "👾 Programming Language"; color := "#8253F6" |}.
Definition trends : SuggestionType :=
  {| type_title := "🚀 OSS trends"; color := "#E78F34" |}.
Definition contributors : SuggestionType :=
  {| type_title := "🧑‍💻 Contributors"; color := "#C9B4FF" |}.
Definition stars : SuggestionType :=
  {| type_title := "🌟 Stars"; color := "#519AEB" |}.
Definition similarProjects : SuggestionType :=
  {| type_title := "🔍 Similar projects"; color := "#34A352" |}.
Definition location : SuggestionType :=
  {| type_title := "🌍 Location"; color := "#FFD7AD" |}.
Definition company : SuggestionType :=
  {| type_title := "🏢 Company"; color := "#BCDAFF" |}.
End types.

Record Suggestion : Type := {
  type : SuggestionType;
  content : string;
}.

Definition questions : list Suggestion :=
  [ {| type := types.hotTopics; content := "Popular repos related to ChatGPT" |};
    {| type := types.hotTopics; content := "The most watched Web3 projects" |};
    {| type := types.programmingLanguage; content := "Top python projects 2022" |};
    {| type := types.programmingLanguage;
       content := "What is the distribution of primary language used in repositories" |};
    {| type := types.trends; content := "The closed PR monthly history of GitHub" |};
    {| type := types.trends; content := "The star history of GitHub all the time" |};
    {| type := types.contributors; content := "Contributor list of @pingcap/tidb" |};
    {| type := types.stars; content := "Star history of @carbon-language/carbon-lang" |};
    {| type := types.similarProjects; content := "Projects similar to @facebook/react" |};
    {| type := types.trends; content := "Top trending HCL repositories of the past month" |};
    {| type := types.location; content := "The most watched projects by India developers" |};
    {| type := types.location;
       content := "Where are @kubernetes/kubernetes contributors come from" |};
    {| type := types.company;
       content := "What projects Microsoft developers like to contribute to" |} ].

(** A click handler [() => onSelect(arg)], kept as the argument it
    passes. *)
Inductive Handler : Type :=
| CallOnSelect (arg : string).

Inductive Markup : Type :=
| Text (s : string)
| Div (children : list Markup)
| Tag (tag_color : string) (children : list Markup)
| Card (onClick : Handler) (children : list Markup)
| GridItem (key : nat) (children : list Markup)
| GridContainer (children : list Markup).

(** [questions.map((question, index) => <Grid item key={index}>..)] *)
Definition suggestion_item (index : nat) (question : Suggestion) : Markup :=
  GridItem index
    [ Card (CallOnSelect (content question))
        [ Tag (color (type question)) [Text (type_title (type question))];
          Div [Text (content question)] ] ].

(** The component, as a function of the array its body reads. *)
Definition Suggestions (questions : list Suggestion) : Markup :=
  GridContainer (imap suggestion_item questions).

(** The cards of a tree, in document order. *)
Fixpoint cards (m : Markup) : list Markup :=
  match m with
  | Text _ => []
  | Card _ _ => [m]
  | Div children | Tag _ children | GridItem _ children | GridContainer children =>
      flat_map cards children
  end.

(** The text a card shows in its [div]. *)
Definition card_content (m : Markup) : option string :=
  match m with
  | Card _ [_; Div [Text s]] => Some s
  | _ => None
  end.

(** The keys of the grid items of a tree, in document order. *)
Definition item_keys (m : Markup) : list nat :=
  match m with
  | GridContainer children =>
      flat_map (λ c, match c with GridItem key _ => [key] | _ => [] end) children
  | _ => []
  end.

(** The card [Suggestions] renders for one question. *)
Definition suggestion_card (question : Suggestion) : Markup :=
  Card (CallOnSelect (content question))
    [ Tag (color (type question)) [Text (type_title (type question))];
      Div [Text (content question)] ].

(** The page that hosts [Suggestions]: its own state and the
    [onSelect] prop it passes. Clicking the [i]-th card runs that card's
    handler; a click that hits no card does nothing. *)
Section Host.
Context {State : Type}.
Variable onSelect : string → State → State.

(** The module-level binding [questions] next to the state of the host. *)
Record Page : Type := {
  module_questions : list Suggestion;
  host : State;
}.

Definition loaded (st : State) : Page :=
  {| module_questions := questions; host := st |}.

Definition rendered (p : Page) : Markup := Suggestions (module_questions p).

Definition run_handler (h : Handler) (p : Page) : Page :=
  match h with
  | CallOnSelect arg =>
      {| module_questions := module_questions p; host := onSelect arg (host p) |}
  end.

Definition click (i : nat) (p : Page) : Page :=
  match cards (rendered p) !! i with
  | Some (Card h _) => run_handler h p
  | _ => p
  end.

Definition clicks (p : Page) (trace : list nat) : Page :=
  foldl (λ p i, click i p) p trace.
End Host.

(** * [Execution.tsx] *)

Section Explore.

(** JavaScript numbers are IEEE doubles; this development never computes
    with them, so their carrier and their [ToString] rendering are
    parameters. *)
Context {Number : Type}.
Variable number_to_string : Number → string.

(** ** JavaScript values *)

(** [VError m] is an instance of [Error] built by [new Error(m)];
    [VObject] is a plain object seen as a finite map from property names
    to values. *)
Inductive JsValue : Type :=
| VUndefined
| VNull
| VBool (b : bool)
| VNumber (n : Number)
| VString (s : string)
| VError (message : string)
| VObject (props : gmap string JsValue).

(** The [typeof] operator. *)
Definition typeof (v : JsValue) : string :=
  match v with
  | VUndefined => "undefined"
  | VNull => "object"
  | VBool _ => "boolean"
  | VNumber _ => "number"
  | VString _ => "string"
  | VError _ => "object"
  | VObject _ => "object"
  end.

(** Member access [v.k]. It throws a [TypeError] on [undefined] and
    [null]; an absent property reads as [undefined]. The wrappers of
    booleans, numbers and strings own none of the names this module
    reads ([response], [data], [message], [querySQL]). *)
Definition get (v : JsValue) (k : string) : Completion JsValue :=
  match v with
  | VUndefined | VNull => Throws
  | VBool _ | VNumber _ | VString _ => Normal VUndefined
  | VError m => Normal (if decide (k = "message") then VString m else VUndefined)
  | VObject props => Normal (default VUndefined (props !! k))
  end.

(** Modelled from the spec: [isNullish], [notNullish], [notFalsy] and
    [isEmptyArray] of [@site/src/utils/value] are not among the sources;
    they are taken as what their names and every use here say: a value is
    nullish when it is [null] or [undefined]. *)
Definition isNullish (v : JsValue) : bool :=
  match v with
  | VUndefined | VNull => true
  | _ => false
  end.

Definition notNullish (v : JsValue) : bool := negb (isNullish v).

(** The same tests on a typed value [T | null | undefined], kept as an
    [option T]. *)
Definition isNullishT {T : Type} (o : option T) : bool :=
  match o with
  | None => true
  | Some _ => false
  end.

Definition notNullishT {T : Type} (o : option T) : bool := negb (isNullishT o).

Definition notFalsyString (s : string) : bool :=
  if decide (s = EmptyString) then false else true.

Definition isEmptyArray {T : Type} (l : list T) : bool :=
  match l with
  | [] => true
  | _ :: _ => false
  end.

(** ** [isSqlError] *)

(** Modelled from the spec: [isAxiosError] of [@site/src/utils/error] is
    not among the sources; it is a parameter, a type guard that holds of
    no nullish value. *)
Variable isAxiosError : JsValue → bool.

Definition isSqlError (error : JsValue) : Completion bool :=
  if isAxiosError error then
    response ← get error "response";
    if notNullish response then
      response ← get error "response";
      data ← get response "data";
      if notNullish data then
        response ← get error "response";
        data ← get response "data";
        message ← get data "message";
        if decide (typeof message = "string") then
          response ← get error "response";
          data ← get response "data";
          querySQL ← get data "querySQL";
          mret (bool_decide (typeof querySQL = "string"))
        else mret false
      else mret false
    else mret false
  else mret false.

(** The shape [isSqlError] is documented to recognise, in the words of
    its return type [AxiosError<{ message: string, querySQL: string }>]:
    an Axios error with a response whose data holds the strings
    [message] and [querySQL]. *)
Definition sql_error_body (error : JsValue) (message querySQL : string) : Prop :=
  isAxiosError error = true
  ∧ ∃ response data : JsValue,
      get error "response" = Normal response ∧ isNullish response = false
      ∧ get response "data" = Normal data ∧ isNullish data = false
      ∧ get data "message" = Normal (VString message)
      ∧ get data "querySQL" = Normal (VString querySQL).

Definition is_sql_error (error : JsValue) : Prop :=
  ∃ message querySQL : string, sql_error_body error message querySQL.

(** An error that carries a string [querySQL] in its response body,
    whatever else it is or holds. *)
Definition carries_querySQL (error : JsValue) (querySQL : string) : Prop :=
  ∃ response data : JsValue,
    get error "response" = Normal response
    ∧ get response "data" = Normal data
    ∧ get data "querySQL" = Normal (VString querySQL).

(** [axios.isAxiosError]: an object whose [isAxiosError] is [true]. *)
Definition axios_isAxiosError (payload : JsValue) : bool :=
  match payload with
  | VObject props =>
      match props !! "isAxiosError" with
      | Some (VBool true) => true
      | _ => false
      end
  | _ => false
  end.

(** An Axios error whose response body has a [querySQL] and no
    [message]. *)
Definition error_without_message : JsValue :=
  VObject
    {[ "isAxiosError" := VBool true;
       "response" :=
         VObject {[ "data" := VObject {[ "querySQL" := VString "SELECT 1" ]} ]} ]}.

(** An Axios error as the API sends it on a failed generation. *)
Definition error_with_message : JsValue :=
  VObject
    {[ "isAxiosError" := VBool true;
       "response" :=
         VObject
           {[ "data" :=
                VObject {[ "message" := VString "syntax error";
                           "querySQL" := VString "SELECT 1" ]} ]} ]}.

(** ** Questions *)

(** Modelled from the spec: the enum [QuestionStatus] of
    [@site/src/api/explorer] is not among the sources. Its six members are
    the ones [Execution.tsx] names; [Unknown raw] stands for any other
    value received at run time, the one the [default:] branch of
    [resultTitle] is written for. *)
Inductive QuestionStatus : Type :=
| New
| Waiting
| Running
| Success
| Error
| Cancel
| Unknown (raw : string).

#[global] Instance QuestionStatus_eq_dec : EqDecision QuestionStatus.
Proof. solve_decision. Defined.

(** Modelled from the spec: the interfaces [ChartResult] and [Question]
    of [@site/src/api/explorer] are not among the sources. The records
    hold the fields [Execution.tsx] reads; a field read through [?.] or
    [??], or tested with [notNullish], is optional. *)
Record ChartResult : Type := {
  chartName : string;
  chartOptions : gmap string JsValue;
}.

Record Field : Type := { name : string }.

Record QuestionResult : Type := {
  rows : list (gmap string JsValue);
  fields : list Field;
}.

Record Question : Type := {
  id : string;
  status : QuestionStatus;
  title : string;
  querySQL : string;
  engines : list string;
  spent : option Number;
  result : option QuestionResult;
  chart : option ChartResult;
  error : JsValue;
}.

(** [const PENDING_STATE = new Set([New, Waiting, Running])], with
    [Set.prototype.has] as [elem_of_list] decided. *)
Definition PENDING_STATE : list QuestionStatus := [New; Waiting; Running].

Definition has (s : list QuestionStatus) (x : QuestionStatus) : bool :=
  bool_decide (x ∈ s).

(** ** The browser timers *)

(** The one callback this module hands to [setTimeout]:
    [() => { setAsyncData(pollQuestion(id)) }]. *)
Inductive Callback : Type :=
| PollQuestion (id : string).

Record Timeout : Type := {
  callback : Callback;
  delay : Z;
}.

(** The timeouts that are scheduled and have neither fired nor been
    cleared, by handle, and the next handle [setTimeout] gives out. *)
Record Timers : Type := {
  next_handle : nat;
  pending : gmap nat Timeout;
}.

Definition TimerM (A : Type) : Type := Timers → A * Timers.

#[global] Instance TimerM_ret : MRet TimerM := fun _ a w => (a, w).
#[global] Instance TimerM_bind : MBind TimerM := fun _ _ k m w =>
  let (a, w') := m w in k a w'.

Definition setTimeout (cb : Callback) (ms : Z) : TimerM nat := fun w =>
  (next_handle w,
   {| next_handle := S (next_handle w);
      pending := <[next_handle w := {| callback := cb; delay := ms |}]> (pending w) |}).

Definition clearTimeout (h : nat) : TimerM unit := fun w =>
  ((), {| next_handle := next_handle w; pending := delete h (pending w) |}).

(** ** [useQuestion] *)

(** The cleanup an effect returns: [() => { clearTimeout(h) }]. *)
Inductive Cleanup : Type :=
| ClearTimeout (h : nat).

Definition run_cleanup (c : Cleanup) : TimerM unit :=
  match c with
  | ClearTimeout h => clearTimeout h
  end.

(** The effect of [useQuestion] with dependencies [[data, loading]]. The
    [match] on [data] is [notNullish(data)]. *)
Definition pollEffect (data : option Question) (loading : bool)
  : TimerM (option Cleanup) :=
  match data with
  | Some data =>
      if negb loading then
        match status data with
        | New | Waiting | Running =>
            h ← setTimeout (PollQuestion (id data)) 1500;
            mret (Some (ClearTimeout h))
        | Success | Error | Cancel => mret None
        | Unknown _ => mret None
        end
      else mret None
  | None => mret None
  end.

Definition resultPending (data : option Question) : bool :=
  match data with
  | None => false
  | Some data => has PENDING_STATE (status data)
  end.

(** [data?.status === QuestionStatus.Cancel ? new Error(..) : data?.error] *)
Definition resultError (data : option Question) : JsValue :=
  if decide (status <$> data = Some Cancel)
  then VError "Execution was canceled"
  else from_option error VUndefined data.

(** What [useQuestion] returns, from the state [data], [loading],
    [error] that [useAsyncState] holds ([run] left out). *)
Record UseQuestion : Type := {
  ret_question : option Question;
  ret_loading : bool;
  ret_resultPending : bool;
  ret_sqlError : JsValue;
  ret_resultError : JsValue;
}.

Definition useQuestion (data : option Question) (loading : bool) (error : JsValue)
  : UseQuestion :=
  {| ret_question := data;
     ret_loading := loading;
     ret_resultPending := resultPending data;
     ret_sqlError := error;
     ret_resultError := resultError data |}.

(** *** The effect under React

    React runs the cleanup of the previous run of an effect before it
    runs the effect again, and on unmount. [Rerun data loading] is a
    commit in which the dependencies [[data, loading]] have changed;
    [Fire h] is the browser firing timeout [h]; the callback it runs
    issues [pollQuestion], logged in [polls]. *)
Record HookState : Type := {
  timers : Timers;
  cleanup : option Cleanup;
  polls : list string;
}.

Inductive Event : Type :=
| Rerun (data : option Question) (loading : bool)
| Fire (h : nat)
| Unmount.

Definition run_previous_cleanup (c : option Cleanup) : TimerM unit :=
  match c with
  | Some c => run_cleanup c
  | None => mret ()
  end.

Definition run_callback (cb : Callback) (log : list string) : list string :=
  match cb with
  | PollQuestion id => log ++ [id]
  end.

Definition step (s : HookState) (e : Event) : HookState :=
  match e with
  | Rerun data loading =>
      let (c, w) := (_ ← run_previous_cleanup (cleanup s);
                     pollEffect data loading) (timers s) in
      {| timers := w; cleanup := c; polls := polls s |}
  | Fire h =>
      match pending (timers s) !! h with
      | Some t =>
          {| timers := {| next_handle := next_handle (timers s);
                          pending := delete h (pending (timers s)) |};
             cleanup := cleanup s;
             polls := run_callback (callback t) (polls s) |}
      | None => s
      end
  | Unmount =>
      let (_, w) := run_previous_cleanup (cleanup s) (timers s) in
      {| timers := w; cleanup := None; polls := polls s |}
  end.

Definition mounted (n : nat) : HookState :=
  {| timers := {| next_handle := n; pending := ∅ |};
     cleanup := None;
     polls := [] |}.

Definition run_events (s : HookState) (es : list Event) : HookState :=
  foldl step s es.

(** The timers a mounted hook owns: nothing is pending, or the one
    timeout the stored cleanup clears. *)
Definition owns_at_most_one (s : HookState) : Prop :=
  pending (timers s) = ∅
  ∨ ∃ h t, cleanup s = Some (ClearTimeout h) ∧ pending (timers s) = {[ h := t ]}.

(** ** Rendered trees *)

(** The components [Execution.tsx] renders, with the props that decide
    what is shown; [NElement] is passive markup, styling props left out.
    A [false], [null] or [undefined] child is [NNull]. *)
Inductive Node : Type :=
| NNull
| NText (s : string)
| NFragment (children : list Node)
| NElement (tag : string) (children : list Node)
| CodeBlock (language : string) (children : list Node)
| Charts (chartData : ChartResult) (data : list (gmap string JsValue))
         (fields : option (list Field))
| TableChart (chartName title : string) (data : list (gmap string JsValue))
             (fields : option (list Field))
| Alert (severity : string) (children : list Node)
| ToggleButtonGroup (value : string) (exclusive : bool) (children : list Node)
| ToggleButton (value : string) (children : list Node)
| TabContext (value : string) (children : list Node)
| StyledTabPanel (value : string) (children : list Node).

(** ** The derived values of [Execution] *)

(** [format] of the package [sql-formatter], on strings: it returns the
    formatted text, or throws on SQL it cannot parse. The package also
    rejects an argument that is not a string by throwing. [Execution]
    calls it with no [try]. *)
Variable format : string → Completion string.

Definition format_value (v : JsValue) : Completion string :=
  match v with
  | VString s => format s
  | _ => Throws
  end.

(** [sqlError.response?.data.querySQL ?? '']: the optional chain stops
    at a nullish [response]. *)
Definition response_querySQL (sqlError : JsValue) : Completion JsValue :=
  response ← get sqlError "response";
  querySQL ← (if isNullish response then mret VUndefined
              else data ← get response "data"; get data "querySQL");
  mret (if isNullish querySQL then VString EmptyString else querySQL).

Definition formattedSql (question : option Question) (sqlError : JsValue)
  : Completion (option string) :=
  match question with
  | Some question =>
      formatted ← format (querySQL question);
      mret (Some formatted)
  | None =>
      is_sql_error ← isSqlError sqlError;
      if is_sql_error : bool then
        sql ← response_querySQL sqlError;
        formatted ← format_value sql;
        mret (Some formatted)
      else mret None
  end.

(** The child of the SQL section:
    [notFalsy(formattedSql) && <CodeBlock language="sql">..</CodeBlock>]. *)
Definition sqlBlock (formattedSql : option string) : Node :=
  match formattedSql with
  | Some sql => if notFalsyString sql then CodeBlock "sql" [NText sql] else NNull
  | None => NNull
  end.

Definition waitingResult (question : option Question) (loading resultPending : bool)
  : bool :=
  if isNullishT question then false
  else if loading then false
  else resultPending.

Definition renderEngines (question : option Question) : Node :=
  match question with
  | Some question =>
      if negb (isEmptyArray (engines question)) then
        NFragment
          [ NText ", Running on";
            NElement "EngineTag" [NText (String.concat ", " (engines question))];
            NElement "Info"
              [ NElement "Typography"
                  [ NElement "b" [NText "tikv"]; NText ": row-store engine";
                    NElement "br" [];
                    NElement "b" [NText "tiflash"]; NText ": column-store engine" ];
                NElement "Divider" [];
                NElement "Typography"
                  [ NText "Intelligent query processing in ";
                    NElement "a" [NText "TiDB optimizer"]; NText "." ] ] ]
      else NNull
  | None => NNull
  end.

(** [`${question.result?.rows.length ?? 'NaN'} rows in
      ${question.spent ?? 'NaN'} seconds`]; an array length prints in
    decimal. *)
Definition summary (question : Question) : string :=
  from_option (λ r, pretty (length (rows r))) "NaN" (result question)
  +:+ " rows in "
  +:+ from_option number_to_string "NaN" (spent question)
  +:+ " seconds".

Definition resultTitle (question : option Question) (chartLoading : bool) : Node :=
  match question with
  | Some question =>
      match status question with
      | New => NText "Pending..."
      | Waiting => NText "Waiting execution..."
      | Running => NText "Running SQL..."
      | Success =>
          if chartLoading then NText "Visualizing..."
          else NFragment [NText (summary question); renderEngines (Some question)]
      | Error => NText "Failed to execute SQL"
      | Cancel => NText "Execution canceled"
      | Unknown _ => NText "Unknown state"
      end
  | None => NText "Pending..."
  end.

(** ** [Chart] *)

(** Modelled from the spec: [getErrorMessage] of [@site/src/utils/error]
    is not among the sources; it is a parameter. *)
Variable getErrorMessage : JsValue → string.


Inductive ChartEvent : Type :=
| ChartDataChanged
| TabChange (newValue : string).

Definition handleTabChange (newValue : string) (tab : string) : string := newValue.

Definition chart_step (tab : string) (e : ChartEvent) : string :=
  match e with
  | ChartDataChanged => "visualization"
  | TabChange newValue => handleTabChange newValue tab
  end.

Definition Chart (tab : string) (chartData : option ChartResult)
    (chartError : JsValue) (fields : option (list Field))
    (result : option (list (gmap string JsValue))) : Node :=
  match chartData, result with
  | Some chartData, Some result =>
      let renderChart := Charts chartData result fields in
      let renderTable := TableChart "Table" "hi" result fields in
      if notNullish chartError then
        NFragment
          [ Alert "error" [NText (getErrorMessage chartError)];
            renderTable ]
      else if decide (chartName chartData = "Table") then renderChart
      else
        NFragment
          [ NElement "Controls"
              [ ToggleButtonGroup tab true
                  [ ToggleButton "visualization" [NElement "AutoGraph" []];
                    ToggleButton "raw" [NElement "TableView" []] ] ];
            TabContext tab
              [ StyledTabPanel "visualization" [renderChart];
                StyledTabPanel "raw" [renderTable] ] ]
  | _, _ => NNull
  end.

(** What a tree puts on the page. A tab panel of [@mui/lab] shows its
    children when its [value] is the [value] of the enclosing
    [TabContext], and nothing otherwise; [ctx] is that value. *)
Fixpoint shown (ctx : option string) (n : Node) : list Node :=
  match n with
  | NNull => []
  | NFragment children => flat_map (shown ctx) children
  | NElement _ children => flat_map (shown ctx) children
  | TabContext value children => flat_map (shown (Some value)) children
  | StyledTabPanel value children =>
      if decide (ctx = Some value) then flat_map (shown ctx) children else []
  | leaf => [leaf]
  end.

(** Whether a tree holds a [Charts] element anywhere, shown or not. *)
Fixpoint holds_Charts (n : Node) : bool :=
  match n with
  | Charts _ _ _ => true
  | NNull | NText _ | TableChart _ _ _ _ => false
  | NFragment children | NElement _ children | CodeBlock _ children
  | Alert _ children | ToggleButtonGroup _ _ children | ToggleButton _ children
  | TabContext _ children | StyledTabPanel _ children =>
      existsb holds_Charts children
  end.


(** ** [run] and the first three effects of [useQuestion] *)

(** Modelled from the spec: the context of [@site/src/context/user] is
    not among the sources; [useQuestion] reads its flag [validating] and
    tests its field [userInfo] for truth, and calls its [login]. *)
Record UserInfoContext : Type := {
  validating : bool;
  userInfo : option string;
}.

(** The promises handed to [setAsyncData]: [newQuestion(real)], and
    [pollQuestion(questionId).then(question => ..)] of the prefetch,
    whose continuation stores [question.title] in [runningQuestion]. *)
Inductive Request : Type :=
| newQuestion (question : string)
| pollQuestion_then_title (questionId : string).

(** The calls [useQuestion] makes into the user context and into
    [useAsyncState], neither among the sources, in the order made. *)
Inductive Call : Type :=
| login
| setAsyncData (request : Request)
| clearState.

(** [run], on the current [content] and the ref [runningQuestion]; it
    gives the ref back and the calls made. [question ?? content] falls
    back on a nullish [question] only. *)
Definition run (user : UserInfoContext) (content : string)
    (runningQuestion : option string) (question : option string)
  : option string * list Call :=
  if validating user && isNullishT (userInfo user) then
    (runningQuestion, [login])
  else
    let real := default content question in
    (Some real, [setAsyncData (newQuestion real)]).

(** The effect with no dependencies, 'only prefetch first question'. *)
Definition prefetchEffect (questionId : option string) (data : option Question)
    (loading : bool) : list Call :=
  match questionId with
  | Some questionId =>
      if isNullishT data && negb loading
      then [setAsyncData (pollQuestion_then_title questionId)]
      else []
  | None => []
  end.

(** The continuation of the prefetch, once the question is there. *)
Definition prefetch_resolved (question : Question) : option string :=
  Some (title question).

(** The effect on [[questionId]], 'clear state if question id was
    deleted'. *)
Definition deletedIdEffect (questionId : option string) : list Call :=
  if isNullishT questionId then [clearState] else [].

(** The effect on [[content]]: [runningQuestion.current !== content]
    holds of an empty ref. *)
Definition contentEffect (content : string) (runningQuestion : option string)
  : option string * list Call :=
  if decide (runningQuestion ≠ Some content)
  then (None, [clearState])
  else (runningQuestion, []).

(** The three effects on mount, in the order declared; the ref starts
    empty ([useRef<string>()]). *)
Definition mount_effects (content : string) (questionId : option string)
    (data : option Question) (loading : bool) : option string * list Call :=
  let calls1 := prefetchEffect questionId data loading in
  let calls2 := deletedIdEffect questionId in
  let (ref, calls3) := contentEffect content None in
  (ref, calls1 ++ calls2 ++ calls3)%list.

(** The ids for which a trace schedules a poll: one per re-run on a
    question that is there, not loading and pending. *)
Definition scheduled_ids (es : list Event) : list string :=
  flat_map
    (λ e, match e with
          | Rerun (Some q) false =>
              if has PENDING_STATE (status q) then [id q] else []
          | _ => []
          end)
    es.

Definition callback_id (cb : Callback) : string :=
  match cb with
  | PollQuestion id => id
  end.

(** What the polls of a hook may be, given the ids [ids] scheduled so
    far: with nothing pending, a subsequence of [ids]; with a timeout
    pending, it is for the last of [ids] and the polls are a subsequence
    of the ids before it. *)
Definition polls_follow (s : HookState) (ids : list string) : Prop :=
  (pending (timers s) = ∅ ∧ sublist (polls s) ids)
  ∨ ∃ h t pre,
      cleanup s = Some (ClearTimeout h)
      ∧ pending (timers s) = {[ h := t ]}
      ∧ ids = (pre ++ [callback_id (callback t)])%list
      ∧ sublist (polls s) pre.

(** ** The section statuses and titles of [Execution] *)

Definition sqlSectionStatus (question : option Question) (loading : bool) : string :=
  if isNullishT question then
    if loading then "loading" else "pending"
  else "success".

Definition sqlTitle (question : option Question) (loading : bool)
    (sqlError : JsValue) : string :=
  if isNullishT question then
    if loading then "Generating SQL..."
    else if isNullish sqlError then EmptyString
    else "Failed to generate SQL"
  else "Show SQL".

(** The body of the memo [resultStatus]. *)
Definition resultStatus_body (question : option Question)
    (loading resultPending chartLoading : bool) : string :=
  if isNullishT question then
    if loading then "loading" else "pending"
  else if resultPending || chartLoading then "loading"
  else "success".

(** [useMemo]: React keeps the value of the previous render when every
    dependency is the same as then ([Object.is]), and runs the body
    otherwise. *)
Record Memo (D V : Type) : Type := {
  memo_deps : D;
  memo_value : V;
}.
Arguments memo_deps {D V} _.
Arguments memo_value {D V} _.

Definition useMemo {D V : Type} (same : D → D → bool) (body : V) (deps : D)
    (previous : option (Memo D V)) : Memo D V :=
  match previous with
  | Some m =>
      if same (memo_deps m) deps then m
      else {| memo_deps := deps; memo_value := body |}
  | None => {| memo_deps := deps; memo_value := body |}
  end.

(** [Object.is] on two values of [question]: a parameter. Two renders
    hold the same [undefined], and hold the same object only if it is
    the same question. *)
Variable same_question : option Question → option Question → bool.

(** [resultStatus], memoised on [[question, resultPending || chartLoading]]. *)
Definition resultStatus_deps : Type := option Question * bool.

Definition same_resultStatus_deps (d1 d2 : resultStatus_deps) : bool :=
  same_question d1.1 d2.1 && bool_decide (d1.2 = d2.2).

Definition resultStatus (previous : option (Memo resultStatus_deps string))
    (question : option Question) (loading resultPending chartLoading : bool)
  : Memo resultStatus_deps string :=
  useMemo same_resultStatus_deps
    (resultStatus_body question loading resultPending chartLoading)
    (question, resultPending || chartLoading)
    previous.

(** One render of [Execution] as far as [resultStatus] goes: the
    question, [loading] and [chartLoading] of that render. *)
Record Render : Type := {
  render_question : option Question;
  render_loading : bool;
  render_chartLoading : bool;
}.

Definition resultStatus_render (previous : option (Memo resultStatus_deps string))
    (r : Render) : option (Memo resultStatus_deps string) :=
  Some (resultStatus previous (render_question r) (render_loading r)
          (resultPending (render_question r)) (render_chartLoading r)).

(** What a memo kept from earlier renders holds when its question is
    there: the status that its second dependency commands. *)
Definition memo_sound (m : option (Memo resultStatus_deps string)) : Prop :=
  ∀ m' q, m = Some m' → (memo_deps m').1 = Some q →
    memo_value m' = if (memo_deps m').2 then "loading" else "success".

(** ** Sample values *)

(** A question with three result rows and no [error] field, in a given
    status. *)
Definition sample_question (st : QuestionStatus) (seconds : option Number) : Question :=
  {| id := "q-1";
     status := st;
     title := "Top python projects 2022";
     querySQL := "SELECT 1";
     engines := ["tikv"; "tiflash"];
     spent := seconds;
     result := Some {| rows := [∅; ∅; ∅]; fields := [{| name := "repo" |}] |};
     chart := None;
     error := VUndefined |}.

Definition sample_chart : ChartResult :=
  {| chartName := "LineChart"; chartOptions := ∅ |}.

(** * Properties of [useQuestion] *)

Lemma pollEffect_schedules (q : Question) (w : Timers) :
  has PENDING_STATE (status q) = true →
  pollEffect (Some q) false w
  = (Some (ClearTimeout (next_handle w)),
     {| next_handle := S (next_handle w);
        pending := <[next_handle w :=
                      {| callback := PollQuestion (id q); delay := 1500 |}]>
                   (pending w) |}).
Proof.
  unfold pollEffect; simpl.
  destruct (status q); first [reflexivity | discriminate 1].
Qed.

Lemma pollEffect_idle (q : Question) (loading : bool) (w : Timers) :
  loading = true ∨ has PENDING_STATE (status q) = false →
  pollEffect (Some q) loading w = (None, w).
Proof.
  intros [-> | Hp]; [reflexivity |].
  unfold pollEffect.
  destruct loading; [reflexivity | simpl].
  destruct (status q); try reflexivity; discriminate Hp.
Qed.

Lemma pending_status (st : QuestionStatus) :
  has PENDING_STATE st = true ↔ st = New ∨ st = Waiting ∨ st = Running.
Proof.
  split.
  - destruct st; first [discriminate 1 | tauto].
  - intros [-> | [-> | ->]]; reflexivity.
Qed.

(** [waitingResult], the flag [Execution] reports through
    [onResultLoading], is up exactly when the effect has a poll
    scheduled. *)
Lemma waitingResult_scheduled (data : option Question) (loading : bool) (w : Timers) :
  waitingResult data loading (resultPending data) = true
  ↔ (pollEffect data loading w).1 = Some (ClearTimeout (next_handle w)).
Proof.
  destruct data as [q |]; [| done].
  unfold waitingResult, resultPending, isNullishT.
  destruct (has PENDING_STATE (status q)) eqn:Hp, loading.
  - by rewrite pollEffect_idle by auto.
  - by rewrite pollEffect_schedules.
  - by rewrite pollEffect_idle by auto.
  - by rewrite pollEffect_idle by auto.
Qed.

Lemma cleanup_empties (s : HookState) :
  owns_at_most_one s →
  pending (run_previous_cleanup (cleanup s) (timers s)).2 = ∅.
Proof.
  intros [He | (h & t & Hc & Hp)].
  - destruct (cleanup s) as [[h] |]; unfold run_previous_cleanup, run_cleanup, clearTimeout; simpl; [| done].
    rewrite He. apply delete_empty.
  - rewrite Hc; unfold run_previous_cleanup, run_cleanup, clearTimeout; simpl.
    rewrite Hp. apply delete_singleton_eq.
Qed.

Lemma cleanup_keeps_handle (c : option Cleanup) (w : Timers) :
  next_handle (run_previous_cleanup c w).2 = next_handle w.
Proof. by destruct c as [[h] |]. Qed.

Lemma pollEffect_owns (data : option Question) (loading : bool) (w : Timers) :
  pending w = ∅ →
  owns_at_most_one
    {| timers := (pollEffect data loading w).2;
       cleanup := (pollEffect data loading w).1;
       polls := [] |}.
Proof.
  intros He.
  destruct data as [q |]; [| by left].
  destruct (has PENDING_STATE (status q)) eqn:Hp, loading.
  - rewrite pollEffect_idle by auto. by left.
  - rewrite pollEffect_schedules by done. right; simpl.
    eexists _, _. split; [reflexivity |]. by rewrite He.
  - rewrite pollEffect_idle by auto. by left.
  - rewrite pollEffect_idle by auto. by left.
Qed.

Lemma step_Rerun (s : HookState) (data : option Question) (loading : bool) :
  let w := (run_previous_cleanup (cleanup s) (timers s)).2 in
  step s (Rerun data loading)
  = {| timers := (pollEffect data loading w).2;
       cleanup := (pollEffect data loading w).1;
       polls := polls s |}.
Proof.
  unfold step, mbind, TimerM_bind.
  destruct (run_previous_cleanup (cleanup s) (timers s)) as [u w]; simpl.
  by destruct (pollEffect data loading w).
Qed.

Lemma step_owns (s : HookState) (e : Event) :
  owns_at_most_one s → owns_at_most_one (step s e).
Proof.
  intros Hs. destruct e as [data loading | h |].
  - rewrite step_Rerun.
    exact (pollEffect_owns data loading _ (cleanup_empties s Hs)).
  - simpl. destruct (pending (timers s) !! h) as [t |] eqn:Hh; [| exact Hs].
    left; simpl. destruct Hs as [He | (h' & t' & _ & Hp)].
    + rewrite He. apply delete_empty.
    + rewrite Hp in Hh |- *.
      apply lookup_singleton_Some in Hh as [-> _].
      apply delete_singleton_eq.
  - pose proof (cleanup_empties s Hs) as He. simpl.
    destruct (run_previous_cleanup (cleanup s) (timers s)) as [u w]; simpl in He.
    by left.
Qed.

Lemma run_events_owns (es : list Event) (s : HookState) :
  owns_at_most_one s → owns_at_most_one (run_events s es).
Proof.
  revert s. induction es as [| e es IH]; intros s Hs; [exact Hs |].
  apply IH, step_owns, Hs.
Qed.

Lemma owns_at_most_one_size (s : HookState) :
  owns_at_most_one s → (size (pending (timers s)) ≤ 1)%nat.
Proof.
  intros [-> | (h & t & _ & ->)].
  - rewrite map_size_empty. lia.
  - rewrite map_size_singleton. lia.
Qed.

(** C1. When the question is there, not loading, and its status is New,
    Waiting or Running, the effect schedules exactly one timeout, of
    1500 ms whatever the status and the state of the timers, and returns
    the cleanup that clears it. So after any history of the hook, a
    re-run on such a question leaves that one timeout pending, and when
    it fires [pollQuestion] is called once, on the id of the question. *)
Theorem poll_scheduled_after_1500ms (q : Question) (w : Timers) (n : nat)
    (es : list Event) :
  status q = New ∨ status q = Waiting ∨ status q = Running →
  pollEffect (Some q) false w
  = (Some (ClearTimeout (next_handle w)),
     {| next_handle := S (next_handle w);
        pending := <[next_handle w :=
                      {| callback := PollQuestion (id q); delay := 1500 |}]>
                   (pending w) |})
  ∧ (let s := run_events (mounted n) es in
     let h := next_handle (timers s) in
     pending (timers (step s (Rerun (Some q) false)))
     = {[ h := {| callback := PollQuestion (id q); delay := 1500 |} ]}
     ∧ polls (step (step s (Rerun (Some q) false)) (Fire h))
       = (polls s ++ [id q])%list)
  ∧ run_events (mounted n) [Rerun (Some q) false; Fire n]
    = {| timers := {| next_handle := S n; pending := ∅ |};
         cleanup := Some (ClearTimeout n);
         polls := [id q] |}.
Proof.
  intros Hst. apply pending_status in Hst.
  split; [by apply pollEffect_schedules |].
  split.
  { cbn zeta. set (s := run_events (mounted n) es).
    assert (Hs : owns_at_most_one s) by (apply run_events_owns; by left).
    rewrite step_Rerun; cbn zeta.
    rewrite pollEffect_schedules by done; cbn.
    rewrite cleanup_keeps_handle, (cleanup_empties s Hs).
    split; [done |].
    by rewrite lookup_insert_eq. }
  change (run_events (mounted n) [Rerun (Some q) false; Fire n])
    with (step (step (mounted n) (Rerun (Some q) false)) (Fire n)).
  rewrite step_Rerun; cbn -[pollEffect].
  rewrite pollEffect_schedules by done; cbn.
  rewrite lookup_insert_eq; cbn.
  by rewrite delete_insert_eq, delete_empty.
Qed.

(** C2. Whatever the sequence of effect re-runs, timer firings and
    unmounts since the hook was mounted, at most one timeout is pending:
    a re-run clears the timeout of the previous run before it schedules
    a new one. *)
Theorem at_most_one_timer (n : nat) (es : list Event) :
  (size (pending (timers (run_events (mounted n) es))) ≤ 1)%nat.
Proof.
  apply owns_at_most_one_size, run_events_owns. by left.
Qed.

(** C8. For a canceled question [resultError] is the error
    [new Error('Execution was canceled')], whatever its own [error] field
    holds; for any other question it is that [error] field, and it is
    [undefined] when there is no question. *)
Theorem resultError_canceled_or_own (q : Question) :
  (status q = Cancel → resultError (Some q) = VError "Execution was canceled")
  ∧ (status q ≠ Cancel → resultError (Some q) = error q)
  ∧ resultError None = VUndefined.
Proof.
  unfold resultError; simpl. repeat split.
  - intros ->. by rewrite decide_True.
  - intros Hne. rewrite decide_False; [done | congruence].
Qed.

(** C4. The title of the result section, status by status. Apart from
    the summary of a successful question whose chart is not loading, it
    is decided by the status and the chart-loading flag alone. *)
Theorem resultTitle_by_status (q : Question) (chartLoading : bool) :
  (status q = New → resultTitle (Some q) chartLoading = NText "Pending...")
  ∧ (status q = Waiting →
       resultTitle (Some q) chartLoading = NText "Waiting execution...")
  ∧ (status q = Running → resultTitle (Some q) chartLoading = NText "Running SQL...")
  ∧ (status q = Error →
       resultTitle (Some q) chartLoading = NText "Failed to execute SQL")
  ∧ (status q = Cancel → resultTitle (Some q) chartLoading = NText "Execution canceled")
  ∧ (status q = Success →
       resultTitle (Some q) true = NText "Visualizing..."
       ∧ resultTitle (Some q) false
         = NFragment
             [ NText (from_option (λ r, pretty (length (rows r))) "NaN" (result q)
                      +:+ " rows in "
                      +:+ from_option number_to_string "NaN" (spent q)
                      +:+ " seconds");
               renderEngines (Some q) ])
  ∧ resultTitle None chartLoading = NText "Pending..."
  ∧ (∀ raw, status q = Unknown raw →
       resultTitle (Some q) chartLoading = NText "Unknown state")
  ∧ (∀ (q' : Question) (chartLoading' : bool),
       status q' = status q →
       (status q = Success → chartLoading = true ∧ chartLoading' = true) →
       resultTitle (Some q') chartLoading' = resultTitle (Some q) chartLoading).
Proof.
  unfold resultTitle; simpl.
  repeat match goal with |- _ ∧ _ => split end;
    try (by intros ->); try done.
  - by intros raw ->.
  - intros q' c' Heq Hs. rewrite Heq.
    destruct (status q); try done.
    by destruct Hs as [-> ->].
Qed.

(** C3, as the code has it. For a question whose status is Error or
    Cancel the effect schedules nothing and returns no cleanup, and a
    re-run on it leaves no timeout pending and calls [pollQuestion] no
    further; the title is 'Failed to execute SQL' or 'Execution
    canceled'. A canceled question always carries an error to display; a
    failed one displays its own [error] field, which is an error only if
    the question was given one. *)
Theorem terminal_failure_no_retry (q : Question) (loading chartLoading : bool)
    (w : Timers) (n : nat) (es : list Event) :
  status q = Error ∨ status q = Cancel →
  pollEffect (Some q) loading w = (None, w)
  ∧ (let s := run_events (mounted n) es in
     let s' := step s (Rerun (Some q) loading) in
     pending (timers s') = ∅ ∧ cleanup s' = None ∧ polls s' = polls s)
  ∧ (status q = Cancel →
       resultError (Some q) = VError "Execution was canceled"
       ∧ resultTitle (Some q) chartLoading = NText "Execution canceled")
  ∧ (status q = Error →
       resultError (Some q) = error q
       ∧ resultTitle (Some q) chartLoading = NText "Failed to execute SQL").
Proof.
  intros Hst.
  assert (Hidle : ∀ w', pollEffect (Some q) loading w' = (None, w')).
  { intros w'. apply pollEffect_idle. right.
    by destruct Hst as [-> | ->]. }
  split; [apply Hidle |]. split.
  - cbn zeta. rewrite step_Rerun; cbn zeta. rewrite Hidle; simpl.
    split; [| done].
    apply cleanup_empties, run_events_owns. by left.
  - unfold resultError, resultTitle; simpl.
    split; intros Hs; rewrite Hs; done.
Qed.

(** * Properties of [isSqlError] and [formattedSql] *)

Lemma get_total (v : JsValue) (k : string) :
  isNullish v = false → ∃ x : JsValue, get v k = Normal x.
Proof. destruct v; simpl; intros; try discriminate; eauto. Qed.

Lemma typeof_string (v : JsValue) :
  typeof v = "string" ↔ ∃ s : string, v = VString s.
Proof.
  split; [| by intros [s ->]].
  destruct v; simpl; intros; try discriminate; eauto.
Qed.

Lemma notNullish_false (v : JsValue) : notNullish v = false ↔ isNullish v = true.
Proof. unfold notNullish. by destruct (isNullish v). Qed.

Lemma notNullish_true (v : JsValue) : notNullish v = true ↔ isNullish v = false.
Proof. unfold notNullish. by destruct (isNullish v). Qed.

Lemma isSqlError_true (error : JsValue) (message querySQL : string) :
  sql_error_body error message querySQL → isSqlError error = Normal true.
Proof.
  intros (Hax & response & data & Hr & Hrn & Hd & Hdn & Hm & Hq).
  unfold isSqlError. rewrite Hax, Hr; simpl.
  apply notNullish_true in Hrn, Hdn.
  rewrite Hrn, Hd; simpl. rewrite Hdn, Hm; simpl. by rewrite Hq.
Qed.

Section AxiosGuard.

(** The type guard [isAxiosError] accepts no nullish value. *)
Hypothesis isAxiosError_not_nullish :
  ∀ v : JsValue, isAxiosError v = true → isNullish v = false.

Lemma isSqlError_cases (error : JsValue) :
  (isSqlError error = Normal true ∧ is_sql_error error)
  ∨ (isSqlError error = Normal false ∧ ¬ is_sql_error error).
Proof.
  unfold isSqlError.
  destruct (isAxiosError error) eqn:Hax; cycle 1.
  { right. split; [done |]. intros (m & s & Hax' & _). congruence. }
  destruct (get_total error "response" (isAxiosError_not_nullish _ Hax))
    as [response Hr].
  rewrite Hr; simpl.
  destruct (notNullish response) eqn:Hrn; cycle 1.
  { right. split; [done |].
    intros (m & s & _ & r' & d' & Hr' & Hrn' & _).
    apply notNullish_false in Hrn. congruence. }
  apply notNullish_true in Hrn.
  destruct (get_total response "data" Hrn) as [data Hd].
  rewrite Hd; simpl.
  destruct (notNullish data) eqn:Hdn; cycle 1.
  { right. split; [done |].
    intros (m & s & _ & r' & d' & Hr' & _ & Hd' & Hdn' & _).
    apply notNullish_false in Hdn. congruence. }
  apply notNullish_true in Hdn.
  destruct (get_total data "message" Hdn) as [message Hm].
  destruct (get_total data "querySQL" Hdn) as [querySQL Hq].
  rewrite Hm; simpl.
  destruct (decide (typeof message = "string")) as [Hmt | Hmt]; cycle 1.
  { right. split; [done |].
    intros (m & s & _ & r' & d' & Hr' & _ & Hd' & _ & Hm' & _).
    apply Hmt, typeof_string. exists m. congruence. }
  rewrite Hq; simpl.
  destruct (decide (typeof querySQL = "string")) as [Hqt | Hqt].
  - left. rewrite bool_decide_eq_true_2 by done. split; [done |].
    apply typeof_string in Hmt as [m ->], Hqt as [s ->].
    exists m, s. split; [done |]. by exists response, data.
  - right. rewrite bool_decide_eq_false_2 by done. split; [done |].
    intros (m & s & _ & r' & d' & Hr' & _ & Hd' & _ & _ & Hq').
    apply Hqt, typeof_string. exists s. congruence.
Qed.

(** C9. [isSqlError] never throws: on every value it returns [true] or
    [false], and [true] exactly on an Axios error with a non-nullish
    response whose non-nullish data has a string [message] and a string
    [querySQL]; so it is [false] on [null] and on [undefined]. *)
Theorem isSqlError_total (error : JsValue) :
  (is_sql_error error → isSqlError error = Normal true)
  ∧ (¬ is_sql_error error → isSqlError error = Normal false)
  ∧ isSqlError VNull = Normal false
  ∧ isSqlError VUndefined = Normal false.
Proof.
  assert (Hnull : ∀ v, isNullish v = true → isSqlError v = Normal false).
  { intros v Hv. unfold isSqlError.
    destruct (isAxiosError v) eqn:Hax; [| done].
    apply isAxiosError_not_nullish in Hax. congruence. }
  repeat split; try (by apply Hnull).
  - intros (m & s & Hb). by apply isSqlError_true with m s.
  - intros Hn. by destruct (isSqlError_cases error) as [[_ ?] | [? _]].
Qed.

(** C5, as the code has it. With a question, the SQL on display is
    what [format] returns for its [querySQL]. Without one, it is what
    [format] returns for the [querySQL] of the error when [isSqlError]
    holds of the error, that is, when the error is an Axios error whose
    response body holds both a string [message] and a string
    [querySQL]; and there is none otherwise. Where [format] throws on
    that SQL, so does the computation, and nothing is displayed. The
    code block shows the text unless it is empty. *)
Theorem formattedSql_of_question_or_sql_error
    (question : option Question) (sqlError : JsValue) :
  (∀ q : Question, question = Some q →
     formattedSql question sqlError
     = match format (querySQL q) with
       | Normal formatted => Normal (Some formatted)
       | Throws => Throws
       end)
  ∧ (∀ message sql : string,
       question = None → sql_error_body sqlError message sql →
       formattedSql question sqlError
       = match format sql with
         | Normal formatted => Normal (Some formatted)
         | Throws => Throws
         end)
  ∧ (question = None → ¬ is_sql_error sqlError →
       formattedSql question sqlError = Normal None)
  ∧ (∀ sql : string,
       sqlBlock (Some sql)
       = if decide (sql = EmptyString) then NNull else CodeBlock "sql" [NText sql])
  ∧ sqlBlock None = NNull.
Proof.
  repeat match goal with |- _ ∧ _ => split end.
  - intros q ->. unfold formattedSql. by destruct (format (querySQL q)).
  - intros message sql -> Hb. unfold formattedSql.
    rewrite (isSqlError_true _ _ _ Hb); simpl.
    destruct Hb as (_ & response & data & Hr & Hrn & Hd & _ & _ & Hq).
    unfold response_querySQL. rewrite Hr; simpl. rewrite Hrn, Hd; simpl.
    rewrite Hq; simpl. by destruct (format sql).
  - intros -> Hn. unfold formattedSql.
    by destruct (isSqlError_cases sqlError) as [[_ ?] | [-> _]].
  - intros sql. unfold sqlBlock, notFalsyString. by destruct (decide _).
  - done.
Qed.

Lemma formattedSql_of_sql_error (sqlError : JsValue) (message sql : string) :
  sql_error_body sqlError message sql →
  response_querySQL sqlError = Normal (VString sql)
  ∧ formattedSql None sqlError
    = match format sql with
      | Normal formatted => Normal (Some formatted)
      | Throws => Throws
      end.
Proof.
  intros Hb.
  assert (Hq : response_querySQL sqlError = Normal (VString sql)).
  { destruct Hb as (_ & response & data & Hr & Hrn & Hd & _ & _ & Hq).
    unfold response_querySQL. rewrite Hr; simpl. rewrite Hrn, Hd; simpl.
    by rewrite Hq. }
  split; [done |].
  unfold formattedSql. rewrite (isSqlError_true _ _ _ Hb); simpl.
  rewrite Hq; simpl. by destruct (format sql).
Qed.

(** X8. Computing the SQL to display throws only where [format] itself
    throws, on the [querySQL] of the question or on the [querySQL] the
    error carries: the reads of [response], [data] and [querySQL] never
    throw, whatever value the failed request left as error, as they are
    made only past [isSqlError], where the [querySQL] read is a string,
    so that the empty-string fallback is not taken and [format] gets a
    string. *)
Theorem formattedSql_throws_only_in_format
    (question : option Question) (sqlError : JsValue) :
  (formattedSql question sqlError = Throws →
     ∃ sql : string,
       format sql = Throws
       ∧ ((∃ q : Question, question = Some q ∧ sql = querySQL q)
          ∨ (question = None ∧ carries_querySQL sqlError sql)))
  ∧ (isSqlError sqlError = Normal true →
       ∃ sql : string,
         carries_querySQL sqlError sql
         ∧ response_querySQL sqlError = Normal (VString sql)).
Proof.
  assert (Hcarries : ∀ m sql, sql_error_body sqlError m sql →
            carries_querySQL sqlError sql).
  { intros m sql (_ & response & data & Hr & _ & Hd & _ & _ & Hq).
    by exists response, data. }
  split.
  - destruct question as [q |].
    + unfold formattedSql. intros Ht. exists (querySQL q).
      split; [by destruct (format (querySQL q)) | left; by exists q].
    + destruct (isSqlError_cases sqlError) as [[_ (m & sql & Hb)] | [Hf _]].
      * rewrite (proj2 (formattedSql_of_sql_error _ _ _ Hb)). intros Ht.
        exists sql. split; [by destruct (format sql) |].
        right. split; [done |]. by apply Hcarries with m.
      * unfold formattedSql. by rewrite Hf.
  - intros Ht.
    destruct (isSqlError_cases sqlError) as [[_ (m & sql & Hb)] | [Hf _]];
      [| congruence].
    exists sql. split; [by apply Hcarries with m |].
    by apply formattedSql_of_sql_error with m.
Qed.

(** X9. SQL is never on display under an empty title. When there is SQL
    to display, either it is the SQL of the question, under 'Show SQL'
    in a section in status 'success', or there is no question and it is
    the SQL of the failed generation, under 'Failed to generate SQL'
    ('Generating SQL...' while loading). And with no question, nothing
    loading and no error, the title is empty and there is no SQL. *)
Theorem sql_shown_under_title (question : option Question) (loading : bool)
    (sqlError : JsValue) :
  (∀ sql : string, formattedSql question sqlError = Normal (Some sql) →
     (∃ q : Question,
        question = Some q ∧ format (querySQL q) = Normal sql
        ∧ sqlTitle question loading sqlError = "Show SQL"
        ∧ sqlSectionStatus question loading = "success")
     ∨ (question = None
        ∧ sqlTitle question loading sqlError
          = (if loading then "Generating SQL..." else "Failed to generate SQL")
        ∧ sqlSectionStatus question loading
          = (if loading then "loading" else "pending")))
  ∧ (question = None → loading = false → isNullish sqlError = true →
       sqlTitle question loading sqlError = EmptyString
       ∧ formattedSql question sqlError = Normal None).
Proof.
  split.
  - intros sql Hsql. destruct question as [q |].
    + left. exists q. unfold formattedSql in Hsql.
      destruct (format (querySQL q)) as [formatted |]; [| discriminate Hsql].
      injection Hsql as ->. by repeat split.
    + right. split; [done |].
      destruct (isSqlError_cases sqlError) as [[_ (m & sql' & Hb)] | [Hf _]].
      * destruct Hb as [Hax _]. apply isAxiosError_not_nullish in Hax.
        unfold sqlTitle, sqlSectionStatus; simpl. rewrite Hax.
        by destruct loading.
      * unfold formattedSql in Hsql. rewrite Hf in Hsql. discriminate Hsql.
  - intros -> -> Hn. unfold sqlTitle; simpl. rewrite Hn. split; [done |].
    unfold formattedSql, isSqlError.
    destruct (isAxiosError sqlError) eqn:Hax; [| done].
    apply isAxiosError_not_nullish in Hax. congruence.
Qed.

End AxiosGuard.

(** * Properties of [Chart] *)

(** C10. [Chart] renders nothing when the chart data or the rows are
    nullish. With both present and a chart error, it renders the error
    alert followed by the table, and no [Charts] element at all. *)
Theorem Chart_null_or_fallback (tab : string) (chartData : option ChartResult)
    (chartError : JsValue) (fields : option (list Field))
    (result : option (list (gmap string JsValue))) :
  (chartData = None ∨ result = None →
     Chart tab chartData chartError fields result = NNull)
  ∧ (∀ c r, chartData = Some c → result = Some r → isNullish chartError = false →
       Chart tab chartData chartError fields result
       = NFragment [ Alert "error" [NText (getErrorMessage chartError)];
                     TableChart "Table" "hi" r fields ]
       ∧ shown None (Chart tab chartData chartError fields result)
         = [ Alert "error" [NText (getErrorMessage chartError)];
             TableChart "Table" "hi" r fields ]
       ∧ holds_Charts (Chart tab chartData chartError fields result) = false).
Proof.
  split.
  - intros [-> | ->]; [done |]. by destruct chartData.
  - intros c r -> -> Hn. apply notNullish_true in Hn.
    unfold Chart. by rewrite Hn.
Qed.

Lemma Chart_with_toggle (tab : string) (c : ChartResult) (chartError : JsValue)
    (fields : option (list Field)) (r : list (gmap string JsValue)) :
  isNullish chartError = true → chartName c ≠ "Table" →
  shown None (Chart tab (Some c) chartError fields (Some r))
  = ToggleButtonGroup tab true
      [ ToggleButton "visualization" [NElement "AutoGraph" []];
        ToggleButton "raw" [NElement "TableView" []] ]
    :: (if decide (tab = "visualization") then [Charts c r fields] else [])
    ++ (if decide (tab = "raw") then [TableChart "Table" "hi" r fields] else []).
Proof.
  intros Hn Hc. apply notNullish_false in Hn.
  unfold Chart. rewrite Hn, decide_False by done. simpl.
  rewrite !app_nil_r. f_equal.
  destruct (decide (tab = "visualization")) as [-> | Hv]; [done |].
  rewrite (decide_False (P := Some tab = Some "visualization")) by congruence.
  destruct (decide (tab = "raw")) as [-> | Hr]; [done |].
  by rewrite decide_False by congruence.
Qed.


(** * More on the polling of [useQuestion] *)

Lemma polls_follow_owns (s : HookState) (ids : list string) :
  polls_follow s ids → owns_at_most_one s.
Proof.
  intros [[He _] | (h & t & pre & Hc & Hp & _)]; [by left |].
  right. by exists h, t.
Qed.

Lemma polls_follow_sublist (s : HookState) (ids : list string) :
  polls_follow s ids → sublist (polls s) ids.
Proof.
  intros [[_ Hs] | (h & t & pre & _ & _ & -> & Hs)]; [done |].
  by apply sublist_inserts_r.
Qed.

Lemma scheduled_ids_Rerun (q : Question) (loading : bool) :
  scheduled_ids [Rerun (Some q) loading]
  = if has PENDING_STATE (status q) && negb loading then [id q] else [].
Proof.
  unfold scheduled_ids; simpl.
  destruct loading; [by rewrite andb_false_r |].
  rewrite andb_true_r. destruct (has PENDING_STATE (status q)); done.
Qed.

Lemma scheduled_ids_cons (e : Event) (es : list Event) :
  scheduled_ids (e :: es) = (scheduled_ids [e] ++ scheduled_ids es)%list.
Proof. unfold scheduled_ids; simpl. by rewrite app_nil_r. Qed.

Lemma step_polls_follow (s : HookState) (e : Event) (ids : list string) :
  polls_follow s ids → polls_follow (step s e) (ids ++ scheduled_ids [e]).
Proof.
  intros Hf.
  pose proof (polls_follow_owns s ids Hf) as Ho.
  pose proof (polls_follow_sublist s ids Hf) as Hs.
  destruct e as [data loading | h |].
  - rewrite step_Rerun; cbn zeta.
    pose proof (cleanup_empties s Ho) as He.
    destruct data as [q |]; [| left; simpl; by rewrite app_nil_r].
    rewrite scheduled_ids_Rerun.
    destruct (has PENDING_STATE (status q)) eqn:Hp, loading; cbn [andb negb].
    + rewrite pollEffect_idle by auto. left. by rewrite app_nil_r.
    + rewrite pollEffect_schedules by done. right; simpl.
      rewrite He.
      eexists _, _, ids. split; [done |]. split; [done |].
      split; [| done]. reflexivity.
    + rewrite pollEffect_idle by auto. left. by rewrite app_nil_r.
    + rewrite pollEffect_idle by auto. left. by rewrite app_nil_r.
  - simpl. rewrite app_nil_r.
    destruct (pending (timers s) !! h) as [t |] eqn:Hh; [| exact Hf].
    left; simpl.
    destruct Hf as [[He _] | (h' & t' & pre & _ & Hp & -> & Hpre)].
    + rewrite He in Hh. by rewrite lookup_empty in Hh.
    + rewrite Hp in Hh |- *.
      apply lookup_singleton_Some in Hh as [-> ->].
      split; [apply delete_singleton_eq |].
      destruct t as [[i] d]; simpl.
      by apply sublist_app.
  - simpl. rewrite app_nil_r.
    pose proof (cleanup_empties s Ho) as He.
    destruct (run_previous_cleanup (cleanup s) (timers s)) as [u w]; simpl in He.
    by left.
Qed.

Lemma run_events_polls_follow (es : list Event) (s : HookState) (ids : list string) :
  polls_follow s ids → polls_follow (run_events s es) (ids ++ scheduled_ids es).
Proof.
  revert s ids. induction es as [| e es IH]; intros s ids Hf.
  - simpl. by rewrite app_nil_r.
  - rewrite scheduled_ids_cons, app_assoc.
    apply IH, step_polls_follow, Hf.
Qed.

Lemma fire_absent (s : HookState) (h : nat) :
  pending (timers s) !! h = None → step s (Fire h) = s.
Proof. intros Hh. simpl. by rewrite Hh. Qed.

Lemma rerun_timers (s : HookState) (data : option Question) (loading : bool) :
  owns_at_most_one s →
  timers (step s (Rerun data loading))
  = match data with
    | Some q =>
        if waitingResult data loading (resultPending data)
        then {| next_handle := S (next_handle (timers s));
                pending := {[ next_handle (timers s) :=
                                {| callback := PollQuestion (id q); delay := 1500 |} ]} |}
        else {| next_handle := next_handle (timers s); pending := ∅ |}
    | None => {| next_handle := next_handle (timers s); pending := ∅ |}
    end.
Proof.
  intros Hs. rewrite step_Rerun; cbn zeta.
  pose proof (cleanup_empties s Hs) as He.
  pose proof (cleanup_keeps_handle (cleanup s) (timers s)) as Hh.
  destruct (run_previous_cleanup (cleanup s) (timers s)) as [u [nh pd]].
  simpl in He, Hh. subst nh pd.
  destruct data as [q |]; [| done].
  unfold waitingResult, resultPending, isNullishT.
  destruct (has PENDING_STATE (status q)) eqn:Hp, loading.
  - by rewrite pollEffect_idle by auto.
  - by rewrite pollEffect_schedules by done.
  - by rewrite pollEffect_idle by auto.
  - by rewrite pollEffect_idle by auto.
Qed.

(** X1. After every commit of the hook, whatever came before, a timeout
    is pending exactly when [waitingResult], the flag [Execution] gives
    to [onResultLoading], is up: it is then the one 1500 ms timeout for
    the id of the current question, and nothing is pending otherwise. *)
Theorem pending_timeout_iff_waitingResult (n : nat) (es : list Event)
    (data : option Question) (loading : bool) :
  let s := run_events (mounted n) es in
  pending (timers (step s (Rerun data loading)))
  = match data with
    | Some q =>
        if waitingResult data loading (resultPending data)
        then {[ next_handle (timers s) :=
                  {| callback := PollQuestion (id q); delay := 1500 |} ]}
        else ∅
    | None => ∅
    end.
Proof.
  cbn zeta. rewrite rerun_timers by (apply run_events_owns; by left).
  destruct data as [q |]; [| done].
  by destruct (waitingResult _ _ _).
Qed.

(** X14. A timeout that a later commit has cleared never polls: if a
    commit schedules a poll and the next commit comes before the timeout
    fires, then the browser firing the handle of the first does nothing,
    so that the id of the earlier question is not polled. *)
Theorem cleared_timeout_never_polls (n : nat) (es : list Event)
    (data data' : option Question) (loading loading' : bool) :
  waitingResult data loading (resultPending data) = true →
  let s := run_events (mounted n) es in
  let s' := step (step s (Rerun data loading)) (Rerun data' loading') in
  step s' (Fire (next_handle (timers s))) = s'.
Proof.
  intros Hw. cbn zeta.
  set (s := run_events (mounted n) es).
  assert (Hs : owns_at_most_one s) by (apply run_events_owns; by left).
  pose proof (rerun_timers s data loading Hs) as H1.
  pose proof (rerun_timers (step s (Rerun data loading)) data' loading'
                (step_owns _ _ Hs)) as H2.
  set (s1 := step s (Rerun data loading)) in *.
  set (s2 := step s1 (Rerun data' loading')) in *.
  apply fire_absent. rewrite H2.
  destruct data as [q |]; [| discriminate Hw].
  rewrite Hw in H1. rewrite H1.
  destruct data' as [q' |];
    [destruct (waitingResult (Some q') loading' (resultPending (Some q'))) |];
    cbn [pending next_handle].
  - rewrite lookup_singleton_ne; [done | lia].
  - apply lookup_empty.
  - apply lookup_empty.
Qed.

(** X2. Unmounting stops the polling: after the unmount no timeout is
    pending and no cleanup is left, and whatever timer handles the
    browser fires afterwards, [pollQuestion] is not called again. *)
Theorem unmount_stops_polling (n : nat) (es : list Event) (hs : list nat) :
  let s := step (run_events (mounted n) es) Unmount in
  pending (timers s) = ∅
  ∧ cleanup s = None
  ∧ run_events s (Fire <$> hs) = s.
Proof.
  cbn zeta.
  assert (Ho : owns_at_most_one (run_events (mounted n) es))
    by (apply run_events_owns; by left).
  pose proof (cleanup_empties _ Ho) as He.
  set (s := step (run_events (mounted n) es) Unmount).
  assert (Hp : pending (timers s) = ∅).
  { unfold s; simpl.
    by destruct (run_previous_cleanup _ _) as [u w]. }
  assert (Hc : cleanup s = None).
  { unfold s; simpl.
    by destruct (run_previous_cleanup _ _) as [u w]. }
  repeat split; [done | done |].
  induction hs as [| h hs IH]; [done |].
  simpl. rewrite Hp, lookup_empty. exact IH.
Qed.

(** X3. The calls to [pollQuestion] a hook has made are, in order, a
    subsequence of the ids its commits have scheduled: no question is
    polled that was not scheduled, and no scheduled timeout polls
    twice. *)
Theorem polls_are_scheduled (n : nat) (es : list Event) :
  let s := run_events (mounted n) es in
  sublist (polls s) (scheduled_ids es)
  ∧ (length (polls s) ≤ length (scheduled_ids es))%nat.
Proof.
  cbn zeta.
  assert (Hs : sublist (polls (run_events (mounted n) es)) (scheduled_ids es)).
  { apply polls_follow_sublist.
    apply (run_events_polls_follow es (mounted n) []). by left. }
  split; [done | by apply sublist_length].
Qed.

(** * [run] and the effects that clear the state *)

Lemma contentEffect_guard (content runningQuestion : string) :
  contentEffect content (Some runningQuestion)
  = if decide (content = runningQuestion)
    then (Some runningQuestion, [])
    else (None, [clearState]).
Proof.
  unfold contentEffect.
  destruct (decide (content = runningQuestion)) as [-> | Hne].
  - rewrite decide_False; [done |]. by intros [].
  - rewrite decide_True; [done | congruence].
Qed.

(** X4. While the user info is validating and no user is there, [run]
    only calls [login]: it submits nothing and leaves the running
    question as it was. Otherwise it submits [question], or [content]
    when [question] is nullish (an empty string is submitted as it is),
    and from then on a change of [content] to the submitted text keeps
    the state, while a change to any other text clears it and forgets
    the running question. *)
Theorem run_submits_and_guards (user : UserInfoContext) (content : string)
    (runningQuestion question : option string) (content' : string) :
  let real := default content question in
  (validating user = true → userInfo user = None →
     run user content runningQuestion question = (runningQuestion, [login]))
  ∧ (validating user = false ∨ is_Some (userInfo user) →
       run user content runningQuestion question
       = (Some real, [setAsyncData (newQuestion real)])
       ∧ contentEffect content' (run user content runningQuestion question).1
         = if decide (content' = real)
           then (Some real, [])
           else (None, [clearState])).
Proof.
  cbn zeta. unfold run. split.
  - by intros -> ->.
  - intros Hok.
    assert (validating user && isNullishT (userInfo user) = false) as ->.
    { destruct Hok as [-> | [u ->]]; [done |]. apply andb_false_r. }
    split; [done |]. apply contentEffect_guard.
Qed.

(** X5. On mount the effect on [content] always calls [clearState] and
    leaves the ref empty, as no question is running yet; it is the last
    call of the three effects. With a question id, no data and nothing
    loading, the prefetch is requested first and [clearState] is called
    right after it; without a question id [clearState] is called twice
    and nothing is requested. Once the prefetched question is there, a
    change of [content] keeps the state only if it is to the title of
    that question. *)
Theorem mount_clears_state (content : string) (questionId : option string)
    (data : option Question) (loading : bool) (q : Question) (content' : string) :
  (mount_effects content questionId data loading).1 = None
  ∧ last (mount_effects content questionId data loading).2 = Some clearState
  ∧ (∀ questionId', questionId = Some questionId' → data = None → loading = false →
       (mount_effects content questionId data loading).2
       = [setAsyncData (pollQuestion_then_title questionId'); clearState])
  ∧ (questionId = None →
       (mount_effects content questionId data loading).2 = [clearState; clearState])
  ∧ contentEffect content' (prefetch_resolved q)
    = if decide (content' = title q)
      then (Some (title q), [])
      else (None, [clearState]).
Proof.
  unfold mount_effects, contentEffect at 1 2 3 4. rewrite decide_True by done.
  simpl. repeat match goal with |- _ ∧ _ => split end.
  - done.
  - by destruct questionId, data, loading.
  - by intros i -> -> ->.
  - by intros ->.
  - apply contentEffect_guard.
Qed.

(** * More on [Chart] *)

(** X6. [handleTabChange] stores the value it is given, whatever it is.
    With chart data, rows, no chart error and a chart that is not a
    table, a tab value other than 'visualization' and 'raw' leaves the
    toggle on the page and shows neither the chart nor the table. *)
Theorem Chart_other_tab_shows_no_view (tab newValue : string) (c : ChartResult)
    (chartError : JsValue) (fields : option (list Field))
    (r : list (gmap string JsValue)) :
  isNullish chartError = true → chartName c ≠ "Table" →
  newValue ≠ "visualization" → newValue ≠ "raw" →
  shown None (Chart (chart_step tab (TabChange newValue)) (Some c) chartError
                fields (Some r))
  = [ ToggleButtonGroup newValue true
        [ ToggleButton "visualization" [NElement "AutoGraph" []];
          ToggleButton "raw" [NElement "TableView" []] ] ].
Proof.
  intros Hn Hc Hv Hr.
  change (chart_step tab (TabChange newValue)) with newValue.
  rewrite Chart_with_toggle by done.
  by rewrite !decide_False by done.
Qed.

(** X7. What [Chart] shows follows the last event only: after any
    sequence of tab changes and chart data changes that ends in a chart
    data change, the chart is shown and the table is not, whatever tab
    had been chosen before; and the tab never makes a difference when
    the chart is a table or a chart error is there. *)
Theorem Chart_after_data_change (tab tab' : string) (es : list ChartEvent)
    (c : ChartResult) (chartError : JsValue) (fields : option (list Field))
    (r : list (gmap string JsValue)) :
  (isNullish chartError = true → chartName c ≠ "Table" →
     shown None (Chart (foldl chart_step tab (es ++ [ChartDataChanged])) (Some c)
                   chartError fields (Some r))
     = [ ToggleButtonGroup "visualization" true
           [ ToggleButton "visualization" [NElement "AutoGraph" []];
             ToggleButton "raw" [NElement "TableView" []] ];
         Charts c r fields ])
  ∧ (isNullish chartError = false ∨ chartName c = "Table" →
       Chart tab (Some c) chartError fields (Some r)
       = Chart tab' (Some c) chartError fields (Some r)).
Proof.
  split.
  - intros Hn Hc. rewrite foldl_app.
    change (foldl chart_step (foldl chart_step tab es) [ChartDataChanged])
      with "visualization".
    by rewrite Chart_with_toggle by done.
  - unfold Chart. intros [Hn | Ht].
    + apply notNullish_true in Hn. by rewrite Hn.
    + destruct (notNullish chartError); [done |]. by rewrite !decide_True.
Qed.

(** * The memo [resultStatus] *)

Section MemoDeps.

(** [Object.is] holds of [undefined] and [undefined], and of two
    questions only if they are the same. *)
Hypothesis same_question_undefined : same_question None None = true.
Hypothesis same_question_sound :
  ∀ a b : option Question, same_question a b = true → a = b.

Lemma resultStatus_render_sound (m : option (Memo resultStatus_deps string))
    (r : Render) :
  memo_sound m → memo_sound (resultStatus_render m r).
Proof.
  intros Hm m' q [= <-]. unfold resultStatus, useMemo.
  destruct m as [m0 |]; [destruct (same_resultStatus_deps _ _) |].
  - by apply Hm.
  - simpl. by intros ->.
  - simpl. by intros ->.
Qed.

Lemma renders_sound (rs : list Render) (m : option (Memo resultStatus_deps string)) :
  memo_sound m → memo_sound (foldl resultStatus_render m rs).
Proof.
  revert m. induction rs as [| r rs IH]; intros m Hm; [done |].
  apply IH, resultStatus_render_sound, Hm.
Qed.

(** X10. Whenever the question is there, the memoised [resultStatus] is
    the status its body computes for the current render, whatever the
    renders before: 'loading' while the result is pending or the chart
    is loading, 'success' otherwise. *)
Theorem resultStatus_fresh_with_question (rs : list Render) (q : Question)
    (loading chartLoading : bool) :
  let previous := foldl resultStatus_render None rs in
  memo_value (resultStatus previous (Some q) loading (resultPending (Some q))
                chartLoading)
  = resultStatus_body (Some q) loading (resultPending (Some q)) chartLoading.
Proof.
  cbn zeta.
  assert (Hm : memo_sound (foldl resultStatus_render None rs)).
  { apply renders_sound. by intros m' q' [=]. }
  destruct (foldl resultStatus_render None rs) as [m |]; [| done].
  unfold resultStatus, useMemo.
  destruct (same_resultStatus_deps _ _) eqn:Hsame; [| done].
  apply andb_true_iff in Hsame as [Hq Hb].
  apply same_question_sound in Hq. apply bool_decide_eq_true in Hb.
  simpl in Hq, Hb. rewrite (Hm m q eq_refl Hq), Hb. done.
Qed.

(** X11. With no question the memo is not refreshed when [loading]
    alone changes, [loading] not being among its dependencies: the
    second of two renders with no question and the same [chartLoading]
    keeps the memo of the first, whatever [loading] is in each. So from
    mount, after a render with nothing loading, a render with [loading]
    up still gives 'pending', where the body gives 'loading'. *)
Theorem resultStatus_ignores_loading
    (previous : option (Memo resultStatus_deps string))
    (loading1 loading2 chartLoading : bool) :
  let first := resultStatus previous None loading1 false chartLoading in
  resultStatus (Some first) None loading2 false chartLoading = first
  ∧ memo_value
      (resultStatus (Some (resultStatus None None false false chartLoading))
         None true false chartLoading)
    = "pending"
  ∧ resultStatus_body None true false chartLoading = "loading".
Proof.
  cbn zeta.
  assert (Hkeep : ∀ m : Memo resultStatus_deps string,
            memo_deps m = (None, chartLoading) →
            resultStatus (Some m) None loading2 false chartLoading = m).
  { intros m Hd. unfold resultStatus, useMemo, same_resultStatus_deps.
    rewrite Hd; simpl.
    by rewrite same_question_undefined, bool_decide_eq_true_2. }
  split; [| split; [| done]].
  - apply Hkeep. unfold resultStatus, useMemo.
    destruct previous as [m |]; [| done].
    destruct (same_resultStatus_deps _ _) eqn:Hsame; [| done].
    apply andb_true_iff in Hsame as [Hq Hb].
    apply same_question_sound in Hq. apply bool_decide_eq_true in Hb.
    simpl in Hq, Hb. destruct (memo_deps m) as [d1 d2]; simpl in *. congruence.
  - unfold resultStatus at 1, useMemo, same_resultStatus_deps; simpl.
    by rewrite same_question_undefined, bool_decide_eq_true_2.
Qed.

End MemoDeps.

End Explore.

Arguments memo_deps {D V} _.
Arguments memo_value {D V} _.

(** * Properties of [Suggestions] *)

Lemma clicks_keep_questions {State : Type} (onSelect : string → State → State)
    (trace : list nat) (p : Page) :
  module_questions (clicks onSelect p trace) = module_questions p.
Proof.
  revert p. induction trace as [| i trace IH]; intros p; [done |].
  simpl. rewrite IH. unfold click.
  destruct (cards (rendered p) !! i) as [[| | | [arg] | |] |]; done.
Qed.

(** C7. [Suggestions] renders the 13 predefined questions, one card
    each, in the order of their declaration; no sequence of clicks
    changes the list or what is rendered; and a click on the [i]-th card
    calls [onSelect] once, with the content of the [i]-th question. *)
Theorem Suggestions_static {State : Type} (onSelect : string → State → State)
    (st : State) (trace : list nat) (i : nat) :
  let p := clicks onSelect (loaded st) trace in
  length questions = 13
  ∧ module_questions p = questions
  ∧ rendered p = Suggestions questions
  ∧ card_content <$> cards (rendered p) = Some ∘ content <$> questions
  ∧ click onSelect i p
    = match questions !! i with
      | Some q => {| module_questions := questions;
                     host := onSelect (content q) (host p) |}
      | None => p
      end.
Proof.
  cbn zeta.
  pose proof (clicks_keep_questions onSelect trace (loaded st)) as Hq.
  simpl in Hq.
  assert (Hr : rendered (clicks onSelect (loaded st) trace) = Suggestions questions).
  { unfold rendered. by rewrite Hq. }
  repeat match goal with |- _ ∧ _ => split end; try done.
  - by rewrite Hr.
  - unfold click. rewrite Hr.
    destruct (decide (i < 13)%nat) as [Hi | Hi].
    + do 13 (destruct i as [| i]; [simpl; unfold run_handler; by rewrite Hq |]).
      lia.
    + rewrite (lookup_ge_None_2 questions i) by (simpl; lia).
      rewrite (lookup_ge_None_2 (cards (Suggestions questions)) i) by (simpl; lia).
      done.
Qed.

(** * [Suggestions] on any list of questions *)

Lemma imap_items_cards (qs : list Suggestion) (g : nat → nat) :
  flat_map cards (imap (λ i, suggestion_item (g i)) qs) = suggestion_card <$> qs.
Proof.
  revert g. induction qs as [| q qs IH]; intros g; [done |].
  simpl. f_equal. apply (IH (g ∘ S)).
Qed.

Lemma imap_items_keys (qs : list Suggestion) (g : nat → nat) :
  flat_map (λ c, match c with GridItem key _ => [key] | _ => [] end)
    (imap (λ i, suggestion_item (g i)) qs)
  = g <$> seq 0 (length qs).
Proof.
  revert g. induction qs as [| q qs IH]; intros g; [done |].
  simpl. f_equal.
  transitivity (g ∘ S <$> seq 0 (length qs)); [apply (IH (g ∘ S)) |].
  by rewrite <- fmap_S_seq, <- list_fmap_compose.
Qed.

Lemma cards_Suggestions (qs : list Suggestion) :
  cards (Suggestions qs) = suggestion_card <$> qs.
Proof. apply (imap_items_cards qs (λ i, i)). Qed.

Lemma click_lookup {State : Type} (onSelect : string → State → State)
    (i : nat) (p : Page) :
  click onSelect i p
  = match module_questions p !! i with
    | Some q => {| module_questions := module_questions p;
                   host := onSelect (content q) (host p) |}
    | None => p
    end.
Proof.
  unfold click, rendered. rewrite cards_Suggestions, list_lookup_fmap.
  by destruct (module_questions p !! i).
Qed.

(** X12. Whatever the list of questions, [Suggestions] renders one grid
    item per question, keyed by its index, so that the keys are
    [0 .. n-1] and no two items share a key, and one card per question,
    in order, each showing the tag and the content of its question and
    passing that content to [onSelect]; an empty list renders no card. *)
Theorem Suggestions_any_list (qs : list Suggestion) :
  item_keys (Suggestions qs) = seq 0 (length qs)
  ∧ NoDup (item_keys (Suggestions qs))
  ∧ cards (Suggestions qs)
    = (λ q, Card (CallOnSelect (content q))
              [ Tag (color (type q)) [Text (type_title (type q))];
                Div [Text (content q)] ]) <$> qs
  ∧ card_content <$> cards (Suggestions qs) = Some ∘ content <$> qs
  ∧ cards (Suggestions []) = [].
Proof.
  assert (Hk : item_keys (Suggestions qs) = seq 0 (length qs)).
  { unfold item_keys, Suggestions.
    etrans; [apply (imap_items_keys qs (λ i, i)) |]. apply list_fmap_id. }
  repeat match goal with |- _ ∧ _ => split end.
  - exact Hk.
  - rewrite Hk. apply NoDup_seq.
  - apply cards_Suggestions.
  - rewrite cards_Suggestions, <- list_fmap_compose. done.
  - done.
Qed.

(** X13. The host sees the contents selected, in the order of the
    clicks and nothing else: after any sequence of clicks its state is
    the one [onSelect] builds from the contents of the questions
    clicked, a click that hits no card (an index past the last
    question) leaving it as it is; and the list of questions is the
    same as before. *)
Theorem clicks_select_in_order {State : Type} (onSelect : string → State → State)
    (p : Page) (trace : list nat) :
  host (clicks onSelect p trace)
  = foldl (λ st i, match module_questions p !! i with
                   | Some q => onSelect (content q) st
                   | None => st
                   end)
      (host p) trace
  ∧ module_questions (clicks onSelect p trace) = module_questions p.
Proof.
  split; [| apply clicks_keep_questions].
  revert p. induction trace as [| i trace IH]; intros p; [done |].
  simpl. rewrite IH, click_lookup.
  destruct (module_questions p !! i) as [q |] eqn:Hq; simpl; [| done].
  done.
Qed.

(** * Instances on concrete values *)

Lemma poll_scheduled_after_1500ms_witness :
  let q := sample_question (Number := Z) Running None in
  let w := {| next_handle := 7; pending := ∅ |} in
  (status q = New ∨ status q = Waiting ∨ status q = Running)
  ∧ pollEffect (Some q) false w
    = (Some (ClearTimeout 7),
       {| next_handle := 8;
          pending := <[7 := {| callback := PollQuestion "q-1"; delay := 1500 |}]> ∅ |}).
Proof.
  split; [right; right; reflexivity |].
  apply (poll_scheduled_after_1500ms (sample_question (Number := Z) Running None)
           {| next_handle := 7; pending := ∅ |} 0 []).
  right; right; reflexivity.
Defined.

Lemma resultError_canceled_or_own_witness :
  let q := sample_question (Number := Z) Cancel None in
  status q = Cancel ∧ resultError (Some q) = VError "Execution was canceled".
Proof.
  split; [reflexivity |].
  apply (resultError_canceled_or_own (sample_question (Number := Z) Cancel None)).
  reflexivity.
Defined.

Lemma resultTitle_by_status_witness :
  let q := sample_question (Number := Z) Success (Some 2%Z) in
  status q = Success
  ∧ resultTitle pretty (Some q) true = NText "Visualizing..."
  ∧ resultTitle pretty (Some q) false
    = NFragment [NText "3 rows in 2 seconds"; renderEngines (Some q)].
Proof.
  split; [reflexivity |].
  destruct (resultTitle_by_status pretty (sample_question Success (Some 2%Z)) false)
    as (_ & _ & _ & _ & _ & Hsuccess & _).
  exact (Hsuccess eq_refl).
Defined.

(** A failed question that was given no [error] field displays no
    error: [resultError] is [undefined]. *)
Lemma failed_question_without_error :
  let q := sample_question (Number := Z) Error None in
  status q = Error
  ∧ resultError (Some q) = VUndefined
  ∧ isNullish (resultError (Some q)) = true.
Proof. repeat split. Qed.

Lemma axios_isAxiosError_not_nullish {Number : Type} (v : JsValue (Number := Number)) :
  axios_isAxiosError v = true → isNullish v = false.
Proof. destruct v; simpl; congruence. Qed.

Lemma terminal_failure_no_retry_witness :
  let q := sample_question (Number := Z) Error None in
  let w := {| next_handle := 7;
              pending := {[ 3 := {| callback := PollQuestion "q-0"; delay := 1500 |} ]} |} in
  (status q = Error ∨ status q = Cancel)
  ∧ pollEffect (Some q) false w = (None, w).
Proof.
  split; [left; reflexivity |].
  apply (terminal_failure_no_retry pretty (sample_question (Number := Z) Error None)
           false false _ 0 []).
  left; reflexivity.
Defined.

Lemma isSqlError_total_witness :
  is_sql_error (Number := Z) axios_isAxiosError error_with_message
  ∧ isSqlError (Number := Z) axios_isAxiosError error_with_message = Normal true.
Proof.
  assert (Hshape : is_sql_error (Number := Z) axios_isAxiosError error_with_message).
  { exists "syntax error", "SELECT 1". split; [reflexivity |].
    exists (VObject {[ "data" := VObject {[ "message" := VString "syntax error";
                                           "querySQL" := VString "SELECT 1" ]} ]}),
           (VObject {[ "message" := VString "syntax error";
                       "querySQL" := VString "SELECT 1" ]}).
    repeat split; vm_compute; reflexivity. }
  split; [exact Hshape |].
  apply (isSqlError_total (Number := Z) axios_isAxiosError axios_isAxiosError_not_nullish
           error_with_message).
  exact Hshape.
Defined.

(** An Axios error that carries a string [querySQL] in its response body
    and no [message]: [isSqlError] rejects it, and no SQL is produced,
    with a [format] that returns on every text. *)
Lemma querySQL_without_message_not_formatted :
  let format := λ sql : string, Normal sql in
  axios_isAxiosError (Number := Z) error_without_message = true
  ∧ carries_querySQL (Number := Z) error_without_message "SELECT 1"
  ∧ format "SELECT 1" = Normal "SELECT 1"
  ∧ formattedSql (Number := Z) axios_isAxiosError format None error_without_message
    = Normal None
  ∧ formattedSql (Number := Z) axios_isAxiosError format None error_without_message
    ≠ Normal (Some "SELECT 1").
Proof.
  cbn zeta.
  assert (Hnone : formattedSql (Number := Z) axios_isAxiosError (λ sql, Normal sql)
                    None error_without_message = Normal None)
    by (vm_compute; reflexivity).
  split; [reflexivity |]. split; [| split; [reflexivity | split; [exact Hnone |]]].
  - exists (VObject {[ "data" := VObject {[ "querySQL" := VString "SELECT 1" ]} ]}),
           (VObject {[ "querySQL" := VString "SELECT 1" ]}).
    repeat split; vm_compute; reflexivity.
  - rewrite Hnone. discriminate.
Qed.

Lemma formattedSql_of_question_or_sql_error_witness :
  let format := λ sql : string,
                  if decide (sql = "SELECT (") then Throws
                  else Normal ("  " +:+ sql) in
  sql_error_body (Number := Z) axios_isAxiosError error_with_message
    "syntax error" "SELECT 1"
  ∧ formattedSql (Number := Z) axios_isAxiosError format None error_with_message
    = Normal (Some "  SELECT 1").
Proof.
  cbn zeta.
  assert (Hbody : sql_error_body (Number := Z) axios_isAxiosError error_with_message
                    "syntax error" "SELECT 1").
  { split; [reflexivity |].
    exists (VObject {[ "data" := VObject {[ "message" := VString "syntax error";
                                           "querySQL" := VString "SELECT 1" ]} ]}),
           (VObject {[ "message" := VString "syntax error";
                       "querySQL" := VString "SELECT 1" ]}).
    repeat split; vm_compute; reflexivity. }
  split; [exact Hbody |].
  destruct (formattedSql_of_question_or_sql_error (Number := Z) axios_isAxiosError
              (λ sql, if decide (sql = "SELECT (") then Throws
                      else Normal ("  " +:+ sql))
              axios_isAxiosError_not_nullish
              None error_with_message) as (_ & Hsql & _).
  exact (Hsql "syntax error" "SELECT 1" eq_refl Hbody).
Defined.

Lemma Chart_null_or_fallback_witness :
  let message := λ e : JsValue (Number := Z),
                   match e with VError m => m | _ => "Unknown error" end in
  let chartError := VError "bad chart" in
  isNullish chartError = false
  ∧ Chart message "raw" (Some sample_chart) chartError None (Some [∅])
    = NFragment [ Alert "error" [NText "bad chart"];
                  TableChart "Table" "hi" [∅] None ].
Proof.
  cbn zeta. split; [reflexivity |].
  destruct (Chart_null_or_fallback
              (λ e : JsValue (Number := Z),
                 match e with VError m => m | _ => "Unknown error" end)
              "raw" (Some sample_chart) (VError "bad chart") None (Some [∅]))
    as [_ Hfallback].
  exact (proj1 (Hfallback sample_chart [∅] eq_refl eq_refl eq_refl)).
Defined.



Lemma run_submits_and_guards_witness :
  let user := {| validating := false; userInfo := Some "octocat" |} in
  (validating user = false ∨ is_Some (userInfo user))
  ∧ run user "Top python projects 2022" None None
    = (Some "Top python projects 2022",
       [setAsyncData (newQuestion "Top python projects 2022")])
  ∧ contentEffect "Top rust projects"
      (run user "Top python projects 2022" None None).1
    = (None, [clearState]).
Proof.
  cbn zeta. split; [by left |].
  apply (run_submits_and_guards {| validating := false; userInfo := Some "octocat" |}
           "Top python projects 2022" None None "Top rust projects").
  by left.
Defined.

Lemma mount_clears_state_witness :
  (mount_effects "Top python projects 2022" (Some "q-1") (@None (@Question Z)) false).2
  = [setAsyncData (pollQuestion_then_title "q-1"); clearState].
Proof.
  cbn zeta.
  destruct (mount_clears_state (Number := Z) "Top python projects 2022" (Some "q-1")
              None false (sample_question Success None) "Top python projects 2022")
    as (_ & _ & Hprefetch & _).
  exact (Hprefetch "q-1" eq_refl eq_refl eq_refl).
Defined.

Lemma Chart_other_tab_shows_no_view_witness :
  let message := λ _ : JsValue (Number := Z), "Unknown error" in
  isNullish (VUndefined (Number := Z)) = true
  ∧ chartName (sample_chart (Number := Z)) ≠ "Table"
  ∧ shown None
      (Chart message (chart_step "raw" (TabChange "map")) (Some sample_chart)
         VUndefined None (Some [∅]))
    = [ ToggleButtonGroup "map" true
          [ ToggleButton "visualization" [NElement "AutoGraph" []];
            ToggleButton "raw" [NElement "TableView" []] ] ].
Proof.
  cbn zeta. split; [reflexivity |]. split; [discriminate |].
  apply (Chart_other_tab_shows_no_view (λ _ : JsValue (Number := Z), "Unknown error")
           "raw" "map" sample_chart VUndefined None [∅]);
    [reflexivity | discriminate | discriminate | discriminate].
Defined.

Lemma Chart_after_data_change_witness :
  let message := λ _ : JsValue (Number := Z), "Unknown error" in
  isNullish (VUndefined (Number := Z)) = true
  ∧ chartName (sample_chart (Number := Z)) ≠ "Table"
  ∧ shown None
      (Chart message
         (foldl chart_step "visualization" ([TabChange "raw"] ++ [ChartDataChanged]))
         (Some sample_chart) VUndefined None (Some [∅]))
    = [ ToggleButtonGroup "visualization" true
          [ ToggleButton "visualization" [NElement "AutoGraph" []];
            ToggleButton "raw" [NElement "TableView" []] ];
        Charts sample_chart [∅] None ].
Proof.
  cbn zeta. split; [reflexivity |]. split; [discriminate |].
  destruct (Chart_after_data_change (λ _ : JsValue (Number := Z), "Unknown error")
              "visualization" "raw" [TabChange "raw"] sample_chart VUndefined
              None [∅]) as [Hlast _].
  apply Hlast; [reflexivity | discriminate].
Defined.

Lemma formattedSql_throws_only_in_format_witness :
  let format := λ sql : string,
                  if decide (sql = "SELECT 1") then Throws else Normal sql in
  let q := sample_question (Number := Z) Success None in
  formattedSql axios_isAxiosError format (Some q) VUndefined = Throws
  ∧ ∃ sql : string,
      format sql = Throws
      ∧ ((∃ q' : Question, Some q = Some q' ∧ sql = querySQL q')
         ∨ (Some q = None ∧ carries_querySQL (Number := Z) VUndefined sql)).
Proof.
  cbn zeta. split; [reflexivity |].
  apply (formattedSql_throws_only_in_format (Number := Z) axios_isAxiosError
           (λ sql, if decide (sql = "SELECT 1") then Throws else Normal sql)
           axios_isAxiosError_not_nullish
           (Some (sample_question Success None)) VUndefined).
  reflexivity.
Defined.

Lemma sql_shown_under_title_witness :
  formattedSql (Number := Z) axios_isAxiosError (λ sql, Normal sql) None
    error_with_message
  = Normal (Some "SELECT 1")
  ∧ sqlTitle (Number := Z) None false error_with_message = "Failed to generate SQL".
Proof.
  assert (Hsql : formattedSql (Number := Z) axios_isAxiosError (λ sql, Normal sql)
                   None error_with_message = Normal (Some "SELECT 1"))
    by (vm_compute; reflexivity).
  split; [exact Hsql |].
  destruct (sql_shown_under_title (Number := Z) axios_isAxiosError
              (λ sql, Normal sql)
              axios_isAxiosError_not_nullish None false error_with_message)
    as [Hshown _].
  destruct (Hshown "SELECT 1" Hsql) as [(q & Hq & _) | (_ & Htitle & _)];
    [discriminate Hq | exact Htitle].
Defined.

Lemma only_undefined_is_same {Number : Type} (a b : option (@Question Number)) :
  match a, b with None, None => true | _, _ => false end = true → a = b.
Proof. by destruct a, b. Qed.

Lemma resultStatus_fresh_with_question_witness :
  let same := λ a b : option (@Question Z),
                match a, b with None, None => true | _, _ => false end in
  let q := sample_question Running None in
  memo_value
    (resultStatus same
       (foldl (resultStatus_render same) None
          [ {| render_question := None; render_loading := true;
               render_chartLoading := false |} ])
       (Some q) false (resultPending (Some q)) false)
  = "loading".
Proof.
  cbn zeta.
  apply (resultStatus_fresh_with_question (Number := Z)
           (λ a b, match a, b with None, None => true | _, _ => false end)
           only_undefined_is_same
           [ {| render_question := None; render_loading := true;
                render_chartLoading := false |} ]
           (sample_question Running None) false false).
Defined.

Lemma resultStatus_ignores_loading_witness :
  let same := λ a b : option (@Question Z),
                match a, b with None, None => true | _, _ => false end in
  memo_value
    (resultStatus same (Some (resultStatus same None None false false false))
       None true false false)
  = "pending"
  ∧ resultStatus_body (@None (@Question Z)) true false false = "loading".
Proof.
  cbn zeta.
  apply (resultStatus_ignores_loading (Number := Z)
           (λ a b, match a, b with None, None => true | _, _ => false end)
           eq_refl only_undefined_is_same None false true false).
Defined.

Lemma cleared_timeout_never_polls_witness :
  let q := sample_question (Number := Z) Running None in
  let q' := sample_question (Number := Z) Success None in
  let s' := step (step (mounted 0) (Rerun (Some q) false)) (Rerun (Some q') false) in
  waitingResult (Some q) false (resultPending (Some q)) = true
  ∧ step (Number := Z) s' (Fire 0) = s'.
Proof.
  cbn zeta. split; [reflexivity |].
  exact (cleared_timeout_never_polls (Number := Z) 0 []
           (Some (sample_question Running None))
           (Some (sample_question Success None)) false false eq_refl).
Defined.
